(** * TransactionHistory: the transaction history page

    A shallow embedding of [src/pages/TransactionHistory.tsx].

    - [JS] holds the part of the JavaScript runtime the component relies on:
      values and truthiness, property lookup through [Object.prototype],
      IEEE-754 numbers and [Number.prototype.toFixed].
    - [Supabase] holds the query builder calls the loader chains.
    - The component itself comes next: its state, the two asynchronous
      handlers [checkUser] and [fetchTransactions] in a small state-and-trace
      monad, and the element tree the component function returns.
    - The theorems follow the definitions. *)

From Stdlib Require Import ZArith List String Ascii Bool Lia Floats.
From Stdlib Require Import DecimalString.
Import ListNotations.

Local Open Scope string_scope.

(* ===================================================================== *)
(** * The JavaScript runtime *)
(* ===================================================================== *)

Module JS.

(** ** Values *)

(** JavaScript numbers are IEEE-754 binary64 values, which is what the
    primitive type [float] is.  Built-in function and object values are
    named by their intrinsic. *)
Inductive value : Type :=
| Undefined
| Null
| Str (s : string)
| Num (x : float)
| Function (name : string)
| Object (name : string).

(** ToBoolean. *)
Definition truthy (v : value) : bool :=
  match v with
  | Undefined | Null => false
  | Str s => negb (String.eqb s EmptyString)
  | Num x => negb (PrimFloat.eqb x 0%float || PrimFloat.is_nan x)
  | Function _ | Object _ => true
  end.

(** [a || b] returns one of its operands: the left one when it is truthy. *)
Definition or (a b : value) : value := if truthy a then a else b.

(** The same test on a [string] operand: the empty string is falsy. *)
Definition truthy_string (s : string) : bool := negb (String.eqb s EmptyString).

Definition or_string (a : option string) (b : string) : string :=
  match a with
  | Some s => if truthy_string s then s else b
  | None => b
  end.

(** ** Property lookup *)

Fixpoint own (props : list (string * value)) (k : string) : option value :=
  match props with
  | [] => None
  | (k', v) :: rest => if String.eqb k' k then Some v else own rest k
  end.

(** What an object literal inherits: the properties of [Object.prototype]
    (ECMA-262, 20.1.3 and B.2.2).  Reading [__proto__] runs its getter,
    which returns the prototype of the receiver. *)
Definition Object_prototype : list (string * value) :=
  [ ("constructor", Function "Object");
    ("hasOwnProperty", Function "hasOwnProperty");
    ("isPrototypeOf", Function "isPrototypeOf");
    ("propertyIsEnumerable", Function "propertyIsEnumerable");
    ("toLocaleString", Function "toLocaleString");
    ("toString", Function "toString");
    ("valueOf", Function "valueOf");
    ("__proto__", Object "Object.prototype");
    ("__defineGetter__", Function "__defineGetter__");
    ("__defineSetter__", Function "__defineSetter__");
    ("__lookupGetter__", Function "__lookupGetter__");
    ("__lookupSetter__", Function "__lookupSetter__") ].

(** [obj[k]] for an object literal with own properties [props]: the own
    property when there is one, else the inherited one, else [undefined]. *)
Definition get (props : list (string * value)) (k : string) : value :=
  match own props k with
  | Some v => v
  | None =>
      match own Object_prototype k with
      | Some v => v
      | None => Undefined
      end
  end.

(** ** Numbers as text *)

Definition pow10 (k : Z) : Z := (10 ^ k)%Z.

(** Decimal digits of a non-negative integer, "0" for zero. *)
Definition digits (n : Z) : string :=
  NilEmpty.string_of_uint (N.to_uint (Z.to_N n)).

Fixpoint zeros (k : nat) : string :=
  match k with
  | O => EmptyString
  | S k' => String "0" (zeros k')
  end.

(** Steps 11.b to 11.c of [Number.prototype.toFixed]: the digits of [n]
    with a decimal point before the last [f] of them. *)
Definition fixed_point (f : nat) (n : Z) : string :=
  let m := digits n in
  match f with
  | O => m
  | _ =>
      let k := String.length m in
      let m := if (k <=? f)%nat then zeros (f + 1 - k) ++ m else m in
      let k := String.length m in
      substring 0 (k - f) m ++ "." ++ substring (k - f) f m
  end.

(** The integer [n] for which [n / 10^f] is closest to [m * 2^e], the
    larger one when two are as close. *)
Definition nearest_scaled (f : nat) (m : positive) (e : Z) : Z :=
  let num := (Z.pos m * pow10 (Z.of_nat f))%Z in
  if (0 <=? e)%Z then (num * 2 ^ e)%Z
  else ((2 * num + 2 ^ (- e)) / (2 * 2 ^ (- e)))%Z.

(** [m * 2^e >= 10^21]. *)
Definition at_least_1e21 (m : positive) (e : Z) : bool :=
  if (0 <=? e)%Z then (pow10 21 <=? Z.pos m * 2 ^ e)%Z else false.

(** *** [Number::toString] from [10^21] on

    The number is the integer [X = m * 2^e].  The decimal is the shortest
    [s * 10^(n-k)], [s] of [k] digits, that reads back as the same binary64
    value, the closest one to [X] when several are as short, the even [s] on
    a tie. *)

(** Twice the bounds of the reals that round to [m * 2^e]: half the gap to
    the neighbour on each side, the gap below being half as wide when [m] is
    the least mantissa of its binade. *)
Definition rounds_to (m : positive) (e : Z) (v : Z) : bool :=
  let X2 := (2 * Z.pos m * 2 ^ e)%Z in
  let up := (2 ^ e)%Z in
  let down := if (Z.pos m =? 2 ^ 52)%Z then (2 ^ (e - 1))%Z else (2 ^ e)%Z in
  if Z.even (Z.pos m)
  then ((X2 - down <=? 2 * v) && (2 * v <=? X2 + up))%Z
  else ((X2 - down <? 2 * v) && (2 * v <? X2 + up))%Z.

(** The candidates of [k] digits around [X], and the better of them. *)
Definition closest (X p s0 : Z) (ok0 ok1 : bool) : option Z :=
  let d0 := (X - s0 * p)%Z in
  let d1 := ((s0 + 1) * p - X)%Z in
  match ok0, ok1 with
  | true, true =>
      if (d0 <? d1)%Z then Some s0
      else if (d1 <? d0)%Z then Some (s0 + 1)%Z
      else if Z.even s0 then Some s0 else Some (s0 + 1)%Z
  | true, false => Some s0
  | false, true => Some (s0 + 1)%Z
  | false, false => None
  end.

Fixpoint shortest_from (fuel : nat) (m : positive) (e : Z) (D k : Z) : Z * Z :=
  let X := (Z.pos m * 2 ^ e)%Z in
  match fuel with
  | O => (X, D)
  | S fuel' =>
      let p := pow10 (D - k) in
      let s0 := (X / p)%Z in
      match closest X p s0 (rounds_to m e (s0 * p)) (rounds_to m e ((s0 + 1) * p)) with
      | Some s => (s, k)
      | None => shortest_from fuel' m e D (k + 1)
      end
  end.

(** The digits [s], their number [k] and the exponent [n]. *)
Definition shortest (m : positive) (e : Z) : Z * Z * Z :=
  let X := (Z.pos m * 2 ^ e)%Z in
  let D := Z.of_nat (String.length (digits X)) in
  if rounds_to m e (pow10 D) then (1, 1, D + 1)%Z
  else let '(s, k) := shortest_from 17 m e D 1 in (s, k, D).

Definition toString_exponent (m : positive) (e : Z) : string :=
  let '(s, k, n) := shortest m e in
  let d := digits s in
  let mantissa :=
    if (k =? 1)%Z then d
    else substring 0 1 d ++ "." ++ substring 1 (String.length d - 1) d in
  mantissa ++ "e+" ++ digits (n - 1).

(** ** [Number.prototype.toFixed] (ECMA-262, 21.1.3.3) *)
Definition toFixed (f : nat) (x : float) : string :=
  match Prim2SF x with
  | S754_nan => "NaN"
  | S754_infinity s => (if s then "-" else EmptyString) ++ "Infinity"
  | S754_zero _ => fixed_point f 0
  | S754_finite s m e =>
      (if s then "-" else EmptyString) ++
      (if at_least_1e21 m e then toString_exponent m e
       else fixed_point f (nearest_scaled f m e))
  end.

(** A finite number of magnitude below [10^21]: the range in which
    [toFixed] writes plain digits. *)
Definition below_1e21 (x : float) : bool :=
  match Prim2SF x with
  | S754_zero _ => true
  | S754_finite _ m e => negb (at_least_1e21 m e)
  | _ => false
  end.

(** An array length as a number. *)
Definition of_length (n : nat) : float := PrimFloat.of_uint63 (Uint63.of_Z (Z.of_nat n)).

End JS.

(* ===================================================================== *)
(** * The data store client *)
(* ===================================================================== *)

Module Supabase.

Inductive filter : Type :=
| Eq (column value : string).

Record ordering : Type := { order_column : string; ascending : bool }.

(** A read request as the builder calls accumulate it. *)
Record query : Type := {
  table : string;
  columns : string;
  filters : list filter;
  orderings : list ordering
}.

Definition whitespace (c : ascii) : bool :=
  let n := nat_of_ascii c in
  (n =? 32)%nat || ((9 <=? n)%nat && (n <=? 13)%nat).

(** [select] drops the white space of the column list that is not inside
    double quotes. *)
Fixpoint clean (quoted : bool) (s : string) : string :=
  match s with
  | EmptyString => EmptyString
  | String c rest =>
      if whitespace c && negb quoted then clean quoted rest
      else String c (clean (if Ascii.eqb c "034" then negb quoted else quoted) rest)
  end.

Definition from (t : string) : query :=
  {| table := t; columns := EmptyString; filters := []; orderings := [] |}.

Definition select (cols : string) (q : query) : query :=
  {| table := table q; columns := clean false cols;
     filters := filters q; orderings := orderings q |}.

Definition eq (column value : string) (q : query) : query :=
  {| table := table q; columns := columns q;
     filters := filters q ++ [Eq column value]; orderings := orderings q |}.

Definition order (column : string) (asc : bool) (q : query) : query :=
  {| table := table q; columns := columns q; filters := filters q;
     orderings := orderings q ++ [{| order_column := column; ascending := asc |}] |}.

Record PostgrestError : Type := {
  message : string;
  details : string;
  hint : string;
  code : string
}.

(** What awaiting a query yields: [{ data, error }]. *)
Record response (row : Type) : Type := {
  data : option (list row);
  error : option PostgrestError
}.
Arguments data {row} _.
Arguments error {row} _.

End Supabase.

(** Method chaining: [q .> f] applies the next builder call to [q]. *)
Notation "q .> f" := (f q) (at level 45, left associativity, only parsing).

(* ===================================================================== *)
(** * The component: data and state *)
(* ===================================================================== *)

Record FoodItem : Type := { name : string }.

Record Transaction : Type := {
  id : string;
  buyer_email : string;
  buyer_note : option string;
  item_price : float;
  service_fee : float;
  total_amount : float;
  currency : string;
  status : string;
  created_at : string;
  food_items : option FoodItem
}.

(** Of the auth provider's [User] and [Session] the component reads only
    [session.user] and [session.user.id]. *)
Record User : Type := { user_id : string }.
Record Session : Type := { session_user : User }.

(** The three [useState] cells. *)
Record State : Type := {
  user : option User;
  transactions : list Transaction;
  isLoading : bool
}.

Definition initial : State :=
  {| user := None; transactions := []; isLoading := true |}.

(** What the handlers do to the outside and to the state cells, in order. *)
Inductive Event : Type :=
| GetSession
| Navigate (path : string)
| Query (q : Supabase.query)
| ToastError (msg : string)
| ConsoleError (err : Supabase.PostgrestError)
| SetUser (u : User)
| SetTransactions (rows : list Transaction)
| SetIsLoading (b : bool).

(** The two services the handlers await. *)
Record Backend : Type := {
  session : option Session;
  run : Supabase.query -> Supabase.response Transaction
}.

(** ** Handlers run in a state monad over the cells and the trace *)

Record World : Type := { cells : State; trace : list Event }.

Definition M (A : Type) : Type := World -> A * World.

Definition ret {A} (a : A) : M A := fun w => (a, w).

Definition bind {A B} (c : M A) (k : A -> M B) : M B :=
  fun w => let '(a, w') := c w in k a w'.

Notation "x <- c ;; k" := (bind c (fun x => k))
  (at level 61, c at next level, right associativity).
Notation "c ;; k" := (bind c (fun _ => k))
  (at level 61, right associativity).

Definition emit (e : Event) : M unit :=
  fun w => (tt, {| cells := cells w; trace := trace w ++ [e] |}).

Definition update (f : State -> State) : M unit :=
  fun w => (tt, {| cells := f (cells w); trace := trace w |}).

Definition setUser (u : User) : M unit :=
  emit (SetUser u) ;;
  update (fun s => {| user := Some u; transactions := transactions s; isLoading := isLoading s |}).

Definition setTransactions (rows : list Transaction) : M unit :=
  emit (SetTransactions rows) ;;
  update (fun s => {| user := user s; transactions := rows; isLoading := isLoading s |}).

Definition setIsLoading (b : bool) : M unit :=
  emit (SetIsLoading b) ;;
  update (fun s => {| user := user s; transactions := transactions s; isLoading := b |}).

Definition navigate (path : string) : M unit := emit (Navigate path).

Definition toast_error (msg : string) : M unit := emit (ToastError msg).

Definition console_error (err : Supabase.PostgrestError) : M unit := emit (ConsoleError err).

Definition auth_getSession (b : Backend) : M (option Session) :=
  emit GetSession ;; ret (session b).

Definition await (b : Backend) (q : Supabase.query) : M (Supabase.response Transaction) :=
  emit (Query q) ;; ret (run b q).

Definition exec {A} (c : M A) (s : State) : World :=
  snd (c {| cells := s; trace := [] |}).

(** ** The handlers *)

Definition newline : string := String "010" EmptyString.

(** The template literal passed to [select]. *)
Definition select_columns : string :=
  newline ++ "        *," ++
  newline ++ "        food_items:food_item_id (name)" ++
  newline ++ "      ".

Definition fetchTransactions (b : Backend) (userId : string) : M unit :=
  setIsLoading true ;;
  r <- await b (Supabase.from "transactions"
                  .> Supabase.select select_columns
                  .> Supabase.eq "recipient_id" userId
                  .> Supabase.eq "status" "completed"
                  .> Supabase.order "created_at" false) ;;
  match Supabase.error r with
  | Some error =>
      toast_error "Failed to load transaction history" ;;
      console_error error
  | None =>
      setTransactions (match Supabase.data r with Some rows => rows | None => [] end)
  end ;;
  setIsLoading false.

Definition checkUser (b : Backend) : M unit :=
  session <- auth_getSession b ;;
  match session with
  | None => navigate "/auth"
  | Some session =>
      setUser (session_user session) ;;
      fetchTransactions b (user_id (session_user session))
  end.

(** The request [fetchTransactions userId] builds, field by field. *)
Definition completed_for (userId : string) : Supabase.query :=
  {| Supabase.table := "transactions";
     Supabase.columns := "*,food_items:food_item_id(name)";
     Supabase.filters := [Supabase.Eq "recipient_id" userId; Supabase.Eq "status" "completed"];
     Supabase.orderings := [{| Supabase.order_column := "created_at"; Supabase.ascending := false |}] |}.

(** The read requests of a trace. *)
Definition queries (t : list Event) : list Supabase.query :=
  flat_map (fun e => match e with Query q => [q] | _ => [] end) t.

(** [useEffect(() => { checkUser(); }, [])]: what mounting the page runs. *)
Definition mount (b : Backend) : World := exec (checkUser b) initial.

(* ===================================================================== *)
(** * The component: helpers and the element tree *)
(* ===================================================================== *)

Definition symbols : list (string * JS.value) :=
  [ ("USD", JS.Str "$"); ("EUR", JS.Str "€"); ("GBP", JS.Str "£"); ("NGN", JS.Str "₦") ].

Definition getCurrencySymbol (currency : string) : JS.value :=
  JS.or (JS.get symbols currency) (JS.Str "$").

Definition getTotalReceived (transactions : list Transaction) : float :=
  fold_left (fun sum tx => (sum + item_price tx)%float) transactions 0%float.

(** What the component function returns: elements with their props and
    children; a child is an element, literal text, the value of an embedded
    expression, or the array an embedded [map] yields. *)
Inductive attr : Type :=
| className (s : string)
| variant (s : string)
| size (s : string)
| key (s : string)
| onClick (handler : M unit).

#[local] Unset Elimination Schemes.
Inductive node : Type :=
| Elem (tag : string) (attrs : list attr) (children : list node)
| Text (s : string)
| Expr (v : JS.value)
| Items (l : list node).
#[local] Set Elimination Schemes.

Definition quote : string := String "034" EmptyString.

Definition header : node :=
  Elem "header" [className "border-b border-border bg-card/50 backdrop-blur-sm sticky top-0 z-50"]
    [Elem "div" [className "container mx-auto px-4 py-4"]
      [Elem "div" [className "flex items-center justify-between"]
        [Elem "div" [className "flex items-center gap-3"]
          [Elem "Button" [variant "ghost"; size "icon"; onClick (navigate "/dashboard")]
             [Elem "ArrowLeft" [className "h-5 w-5"] []];
           Elem "UtensilsCrossed" [className "h-8 w-8 text-primary"] [];
           Elem "h1" [className "text-2xl font-bold bg-gradient-hero bg-clip-text text-transparent"]
             [Text "Transaction History"]]]]].

(** The summary card; it sits above the conditional of the page. *)
Definition summaryCard (transactions : list Transaction) : node :=
  Elem "Card" [className "mb-8 shadow-medium"]
    [Elem "CardHeader" []
       [Elem "CardTitle" [className "flex items-center gap-2"]
          [Elem "Gift" [className "h-5 w-5 text-primary"] []; Text "Summary"];
        Elem "CardDescription" [] [Text "Your received gifts overview"]];
     Elem "CardContent" []
       [Elem "div" [className "grid grid-cols-1 md:grid-cols-2 gap-4"]
          [Elem "div" [className "p-4 bg-secondary/50 rounded-lg"]
             [Elem "p" [className "text-sm text-muted-foreground mb-1"] [Text "Total Gifts Received"];
              Elem "p" [className "text-3xl font-bold text-foreground"]
                [Expr (JS.Num (JS.of_length (List.length transactions)))]];
           Elem "div" [className "p-4 bg-accent/10 rounded-lg"]
             [Elem "p" [className "text-sm text-muted-foreground mb-1"] [Text "Total Value Received"];
              Elem "p" [className "text-3xl font-bold text-foreground"]
                [Expr (getCurrencySymbol
                         (JS.or_string (option_map currency (nth_error transactions 0)) "USD"));
                 Expr (JS.Str (JS.toFixed 2 (getTotalReceived transactions)))]]]]].

Definition loadingView : node :=
  Elem "div" [className "text-center py-12"]
    [Elem "div" [className "animate-spin h-8 w-8 border-4 border-primary border-t-transparent rounded-full mx-auto"] [];
     Elem "p" [className "text-muted-foreground mt-4"] [Text "Loading transactions..."]].

Definition emptyView : node :=
  Elem "Card" [className "shadow-medium"]
    [Elem "CardContent" [className "py-12 text-center"]
       [Elem "Gift" [className "h-16 w-16 text-muted-foreground mx-auto mb-4 opacity-50"] [];
        Elem "h3" [className "text-xl font-semibold mb-2"] [Text "No transactions yet"];
        Elem "p" [className "text-muted-foreground mb-6"]
          [Text "When someone buys you a gift, it will appear here."];
        Elem "Button" [onClick (navigate "/dashboard"); className "bg-gradient-hero"]
          [Text "Go to Dashboard"]]].

(** [{transaction.buyer_note && (<div ...>)}]: the operand itself when it is
    falsy, the message block otherwise. *)
Definition noteBlock (transaction : Transaction) : node :=
  match buyer_note transaction with
  | None => Expr JS.Null
  | Some note =>
      if JS.truthy_string note then
        Elem "div" [className "flex items-start gap-2 mt-3 p-3 bg-secondary/50 rounded-lg"]
          [Elem "MessageSquare" [className "h-4 w-4 mt-0.5 text-muted-foreground flex-shrink-0"] [];
           Elem "div" []
             [Elem "p" [className "font-medium text-sm mb-1"] [Text "Message:"];
              Elem "p" [className "text-sm text-foreground italic"]
                [Text quote; Expr (JS.Str note); Text quote]]]
      else Expr (JS.Str note)
  end.

(** All of the list, or the first failure. *)
Fixpoint traverse {A B} (f : A -> option B) (l : list A) : option (list B) :=
  match l with
  | [] => Some []
  | a :: rest =>
      match f a with
      | None => None
      | Some b =>
          match traverse f rest with
          | None => None
          | Some bs => Some (b :: bs)
          end
      end
  end.

Section Renderer.

(** [format timestamp pattern] stands for date-fns'
    [format(new Date(timestamp), pattern)]; it is [None] where that call
    throws [RangeError] (a timestamp that is no valid date). *)
Variable format : string -> string -> option string.

Definition transactionCard (transaction : Transaction) : option node :=
  match format (created_at transaction) "PPP 'at' p" with
  | None => None
  | Some date => Some (
    Elem "Card" [key (id transaction); className "shadow-soft hover:shadow-medium transition-shadow"]
      [Elem "CardContent" [className "p-6"]
        [Elem "div" [className "flex flex-col md:flex-row md:items-start md:justify-between gap-4"]
          [Elem "div" [className "flex-1 space-y-3"]
            [Elem "div" [className "flex items-start justify-between"]
               [Elem "div" []
                  [Elem "h3" [className "font-semibold text-lg mb-1"]
                     [Expr (JS.Str (JS.or_string (option_map name (food_items transaction)) "Gift Item"))];
                   Elem "Badge" [variant "secondary"; className "text-xs"]
                     [Expr (JS.Str (status transaction))]];
                Elem "div" [className "text-right"]
                  [Elem "p" [className "text-2xl font-bold text-primary"]
                     [Expr (getCurrencySymbol (currency transaction));
                      Expr (JS.Str (JS.toFixed 2 (item_price transaction)))];
                   Elem "p" [className "text-xs text-muted-foreground"]
                     [Text "+";
                      Expr (getCurrencySymbol (currency transaction));
                      Expr (JS.Str (JS.toFixed 2 (service_fee transaction)));
                      Text " service fee"]]];
             Elem "div" [className "space-y-2 text-sm"]
               [Elem "div" [className "flex items-center gap-2 text-muted-foreground"]
                  [Elem "Mail" [className "h-4 w-4"] [];
                   Elem "span" [className "font-medium"] [Text "From:"];
                   Elem "span" [] [Expr (JS.Str (buyer_email transaction))]];
                Elem "div" [className "flex items-center gap-2 text-muted-foreground"]
                  [Elem "Calendar" [className "h-4 w-4"] [];
                   Elem "span" [className "font-medium"] [Text "Date:"];
                   Elem "span" [] [Expr (JS.Str date)]];
                noteBlock transaction]]]]])
  end.

(** The conditional under the summary card. *)
Definition transactionsList (s : State) : option node :=
  if isLoading s then Some loadingView
  else if (List.length (transactions s) =? 0)%nat then Some emptyView
  else
    match traverse transactionCard (transactions s) with
    | None => None
    | Some cards =>
        Some (Elem "div" [className "space-y-4"]
                [Elem "h2" [className "text-xl font-semibold mb-4"] [Text "All Transactions"];
                 Items cards])
    end.

(** The component function: the tree for a state, [None] when evaluating it
    throws. *)
Definition TransactionHistory (s : State) : option node :=
  match transactionsList s with
  | None => None
  | Some list =>
      Some (Elem "div" [className "min-h-screen bg-background"]
              [header;
               Elem "main" [className "container mx-auto px-4 py-8 max-w-4xl"]
                 [summaryCard (transactions s); list]])
  end.

End Renderer.

(** ** Reading a tree *)

(** The text and expression children of a tree, in document order. *)
Fixpoint leaves (n : node) : list node :=
  match n with
  | Elem _ _ children => flat_map leaves children
  | Items l => flat_map leaves l
  | leaf => [leaf]
  end.

(** The literal texts among them. *)
Definition literal (n : node) : option string :=
  match n with
  | Text s => Some s
  | _ => None
  end.

Definition shows (label : string) (n : node) : bool :=
  existsb (fun l => match literal l with Some s => String.eqb s label | None => false end)
          (leaves n).

(** What follows the first occurrence of a literal text. *)
Fixpoint after (label : string) (l : list node) : list node :=
  match l with
  | [] => []
  | Text s :: rest => if String.eqb s label then rest else after label rest
  | _ :: rest => after label rest
  end.

(** The first element of a tag, in document order. *)
Fixpoint find (tag : string) (n : node) : option node :=
  let first :=
    fix first (l : list node) : option node :=
      match l with
      | [] => None
      | c :: rest =>
          match find tag c with
          | Some x => Some x
          | None => first rest
          end
      end in
  match n with
  | Elem t _ children => if String.eqb t tag then Some n else first children
  | Items l => first l
  | _ => None
  end.

Definition children (n : node) : list node :=
  match n with
  | Elem _ _ cs => cs
  | Items l => l
  | _ => []
  end.

(** Which parts of the page a tree shows, by their captions. *)
Record Panels : Type := {
  summary : bool;
  spinner : bool;
  empty_state : bool;
  transaction_list : bool
}.

Definition panels (page : node) : Panels :=
  {| summary := shows "Total Gifts Received" page && shows "Total Value Received" page;
     spinner := shows "Loading transactions..." page;
     empty_state := shows "No transactions yet" page;
     transaction_list := shows "All Transactions" page |}.

(** The literal texts of a transaction card. *)
Definition card_labels : list string :=
  ["+"; " service fee"; "From:"; "Date:"; "Message:"; quote].

(** A fraction of exactly two decimal digits after at least one integer
    digit, with an optional sign. *)
Definition is_digit (c : ascii) : bool :=
  let n := nat_of_ascii c in (48 <=? n)%nat && (n <=? 57)%nat.

Fixpoint all_digits (s : string) : bool :=
  match s with
  | EmptyString => true
  | String c rest => is_digit c && all_digits rest
  end.

Definition unsigned_two_decimals (s : string) : bool :=
  let k := String.length s in
  (4 <=? k)%nat
  && all_digits (substring 0 (k - 3) s)
  && String.eqb (substring (k - 3) 1 s) "."
  && all_digits (substring (k - 2) 2 s).

Definition two_decimals (s : string) : bool :=
  match s with
  | String "-" rest => unsigned_two_decimals rest
  | _ => unsigned_two_decimals s
  end.

(** Sample data. *)
Definition sample_format (timestamp pattern : string) : option string :=
  if String.eqb timestamp "2024-01-05T10:00:00Z" then Some "January 5th, 2024 at 10:00 AM" else None.

Definition sample (price : float) (code : string) (note : option string)
    (item : option FoodItem) : Transaction :=
  {| id := "tx-1"; buyer_email := "ada@example.com"; buyer_note := note;
     item_price := price; service_fee := 1.5; total_amount := (price + 1.5)%float;
     currency := code; status := "completed"; created_at := "2024-01-05T10:00:00Z";
     food_items := item |}.

Definition jollof : Transaction :=
  sample 12.5 "NGN" None (Some {| name := "Jollof Rice" |}).

Definition loaded (rows : list Transaction) : State :=
  {| user := Some {| user_id := "u-1" |}; transactions := rows; isLoading := false |}.

Definition sample_error : Supabase.PostgrestError :=
  {| Supabase.message := "permission denied for table transactions";
     Supabase.details := EmptyString; Supabase.hint := EmptyString; Supabase.code := "42501" |}.

Definition failing_backend : Backend :=
  {| session := Some {| session_user := {| user_id := "u-1" |} |};
     run := fun _ => {| Supabase.data := None; Supabase.error := Some sample_error |} |}.

Definition signed_out_backend : Backend :=
  {| session := None;
     run := fun _ => {| Supabase.data := Some []; Supabase.error := None |} |}.

Definition sample_backend (rows : list Transaction) : Backend :=
  {| session := Some {| session_user := {| user_id := "u-1" |} |};
     run := fun _ => {| Supabase.data := Some rows; Supabase.error := None |} |}.

(** ** Further readers *)

(** The page around a list section: what [TransactionHistory] returns when
    the section evaluates. *)
Definition page_around (transactions : list Transaction) (list : node) : node :=
  Elem "div" [className "min-h-screen bg-background"]
    [header;
     Elem "main" [className "container mx-auto px-4 py-8 max-w-4xl"]
       [summaryCard transactions; list]].

(** The click handlers of a tree, in document order. *)
Definition click (a : attr) : list (M unit) :=
  match a with
  | onClick handler => [handler]
  | _ => []
  end.

Fixpoint handlers (n : node) : list (M unit) :=
  match n with
  | Elem _ attrs children => (flat_map click attrs ++ flat_map handlers children)%list
  | Items l => flat_map handlers l
  | _ => []
  end.

(** The [key] prop of an element. *)
Definition key_of (n : node) : option string :=
  match n with
  | Elem _ attrs _ =>
      hd_error (flat_map (fun a => match a with key k => [k] | _ => [] end) attrs)
  | _ => None
  end.

(** The elements of the arrays embedded in a tree, in document order. *)
Fixpoint mapped (n : node) : list node :=
  match n with
  | Elem _ _ children => flat_map mapped children
  | Items l => l
  | _ => []
  end.

(** The fields of a row the component reads when it renders. *)
Definition shown (tx : Transaction) :=
  (id tx, buyer_email tx, buyer_note tx, item_price tx, service_fee tx,
   currency tx, status tx, created_at tx, food_items tx).

(** More sample data. *)
Definition undated : Transaction :=
  {| id := "tx-2"; buyer_email := "obi@example.com"; buyer_note := None;
     item_price := 3; service_fee := 0.5; total_amount := 3.5;
     currency := "USD"; status := "completed"; created_at := "yesterday";
     food_items := None |}.

Definition suya : Transaction :=
  {| id := "tx-3"; buyer_email := "obi@example.com"; buyer_note := Some "Enjoy!";
     item_price := 8.25; service_fee := 0.75; total_amount := 9;
     currency := "EUR"; status := "completed"; created_at := "2024-01-05T10:00:00Z";
     food_items := Some {| name := "Suya" |} |}.

Definition null_data_backend : Backend :=
  {| session := Some {| session_user := {| user_id := "u-1" |} |};
     run := fun _ => {| Supabase.data := None; Supabase.error := None |} |}.

(* ===================================================================== *)
(** * Properties of the runtime *)
(* ===================================================================== *)

Section Strings.

Lemma length_app (a b : string) :
  String.length (a ++ b) = String.length a + String.length b.
Proof.
  induction a as [|c a IH]; simpl; [reflexivity | now rewrite IH].
Qed.

Lemma substring_prefix (a r : string) :
  substring 0 (String.length a) (a ++ r) = a.
Proof.
  induction a as [|c a IH]; simpl.
  - destruct r; reflexivity.
  - now rewrite IH.
Qed.

Lemma substring_skip (a r : string) (i n : nat) :
  substring (String.length a + i) n (a ++ r) = substring i n r.
Proof.
  induction a as [|c a IH]; simpl; [reflexivity | exact IH].
Qed.

Lemma substring_all (b : string) :
  substring 0 (String.length b) b = b.
Proof.
  induction b as [|c b IH]; simpl; [reflexivity | now rewrite IH].
Qed.

Lemma length_substring (s : string) :
  forall i n, i + n <= String.length s -> String.length (substring i n s) = n.
Proof.
  induction s as [|c s IH]; intros i n H; simpl in H.
  - assert (i = 0) by lia. assert (n = 0) by lia. subst. reflexivity.
  - destruct i as [|i]; destruct n as [|n]; simpl.
    + reflexivity.
    + rewrite IH; [reflexivity | lia].
    + apply IH. lia.
    + apply IH. lia.
Qed.

Lemma all_digits_app (a b : string) :
  all_digits (a ++ b) = all_digits a && all_digits b.
Proof.
  induction a as [|c a IH]; simpl; [reflexivity | now rewrite IH, andb_assoc].
Qed.

Lemma all_digits_substring (s : string) :
  all_digits s = true -> forall i n, all_digits (substring i n s) = true.
Proof.
  induction s as [|c s IH]; intros H i n.
  - destruct i, n; reflexivity.
  - simpl in H. apply andb_true_iff in H as [Hc Hs].
    destruct i as [|i]; destruct n as [|n]; simpl; auto.
    rewrite Hc. simpl. auto.
Qed.

Lemma all_digits_zeros (k : nat) : all_digits (JS.zeros k) = true.
Proof. induction k; simpl; auto. Qed.

Lemma length_zeros (k : nat) : String.length (JS.zeros k) = k.
Proof. induction k; simpl; auto. Qed.

Lemma all_digits_uint (d : Decimal.uint) :
  all_digits (NilEmpty.string_of_uint d) = true.
Proof. induction d; simpl; auto. Qed.

Lemma all_digits_digits (n : Z) : all_digits (JS.digits n) = true.
Proof. apply all_digits_uint. Qed.

(** A digit is not the minus sign. *)
Lemma two_decimals_digit_first (c : ascii) (s : string) :
  is_digit c = true ->
  two_decimals (String c s) = unsigned_two_decimals (String c s).
Proof.
  destruct c as [[] [] [] [] [] [] [] []]; intros H; try discriminate H; reflexivity.
Qed.

(** Digits, a point, two digits. *)
Lemma unsigned_two_decimals_intro (a b : string) :
  all_digits a = true -> all_digits b = true ->
  1 <= String.length a -> String.length b = 2 ->
  unsigned_two_decimals (a ++ "." ++ b) = true.
Proof.
  intros Ha Hb La Lb. unfold unsigned_two_decimals.
  change (a ++ "." ++ b) with (a ++ String "." b).
  rewrite length_app. cbn [String.length]. rewrite Lb.
  replace (String.length a + 3 - 3) with (String.length a) by lia.
  replace (String.length a + 3 - 2) with (String.length a + 1) by lia.
  rewrite substring_prefix, Ha.
  rewrite <- (Nat.add_0_r (String.length a)) at 2.
  rewrite !substring_skip.
  assert (E1 : substring 0 1 (String "." b) = ".") by (destruct b; reflexivity).
  assert (E2 : substring 1 2 (String "." b) = b)
    by (cbn [substring]; rewrite <- Lb; apply substring_all).
  rewrite E1, E2, Hb.
  replace (4 <=? String.length a + 3)%nat with true
    by (symmetry; apply Nat.leb_le; lia).
  reflexivity.
Qed.

End Strings.
Section ToFixed.

(** Below [10^21], [toFixed(2)] writes digits, a point and two digits. *)
Lemma fixed_point_2_shape (n : Z) :
  exists a b,
    JS.fixed_point 2 n = a ++ "." ++ b
    /\ all_digits a = true /\ all_digits b = true
    /\ 1 <= String.length a /\ String.length b = 2.
Proof.
  unfold JS.fixed_point.
  set (m := JS.digits n).
  set (m' := if (String.length m <=? 2)%nat then JS.zeros (2 + 1 - String.length m) ++ m else m).
  assert (Hd : all_digits m' = true).
  { unfold m'. destruct (String.length m <=? 2)%nat.
    - rewrite all_digits_app, all_digits_zeros. apply all_digits_digits.
    - apply all_digits_digits. }
  assert (Hl : 3 <= String.length m').
  { unfold m'. destruct (Nat.leb_spec (String.length m) 2).
    - rewrite length_app, length_zeros. lia.
    - lia. }
  exists (substring 0 (String.length m' - 2) m'), (substring (String.length m' - 2) 2 m').
  split; [reflexivity|].
  split; [now apply all_digits_substring|].
  split; [now apply all_digits_substring|].
  split.
  - rewrite length_substring; lia.
  - apply length_substring. lia.
Qed.

Lemma fixed_point_2_two_decimals (n : Z) :
  unsigned_two_decimals (JS.fixed_point 2 n) = true
  /\ two_decimals (JS.fixed_point 2 n) = true.
Proof.
  destruct (fixed_point_2_shape n) as (a & b & E & Ha & Hb & La & Lb).
  rewrite E.
  assert (U : unsigned_two_decimals (a ++ "." ++ b) = true)
    by now apply unsigned_two_decimals_intro.
  split; [exact U|].
  destruct a as [|c a]; [simpl in La; lia|].
  simpl in Ha. apply andb_true_iff in Ha as [Hc _].
  change ((String c a) ++ "." ++ b) with (String c (a ++ "." ++ b)) in *.
  rewrite two_decimals_digit_first; assumption.
Qed.

Lemma toFixed_two_decimals (x : float) :
  JS.below_1e21 x = true -> two_decimals (JS.toFixed 2 x) = true.
Proof.
  unfold JS.below_1e21, JS.toFixed.
  destruct (Prim2SF x) as [z| |  |s m e]; try discriminate.
  - intros _. reflexivity.
  - destruct (JS.at_least_1e21 m e); [discriminate|]. intros _.
    destruct (fixed_point_2_two_decimals (JS.nearest_scaled 2 m e)) as [U T].
    destruct s; cbn [append].
    + exact U.
    + exact T.
Qed.

End ToFixed.

(* ===================================================================== *)
(** * The handlers *)
(* ===================================================================== *)

Ltac run_handlers :=
  unfold mount, exec, checkUser, fetchTransactions, auth_getSession, await,
    setUser, setTransactions, setIsLoading, navigate, toast_error, console_error,
    emit, update, bind, ret;
  cbn.

Lemma fetch_query (userId : string) :
  Supabase.from "transactions"
    .> Supabase.select select_columns
    .> Supabase.eq "recipient_id" userId
    .> Supabase.eq "status" "completed"
    .> Supabase.order "created_at" false
  = completed_for userId.
Proof. reflexivity. Qed.

(** The three runs of the loader, by what the request yields. *)
Lemma fetch_run (b : Backend) (userId : string) (s : State) :
  exec (fetchTransactions b userId) s =
  match Supabase.error (run b (completed_for userId)) with
  | Some err =>
      {| cells := {| user := user s; transactions := transactions s; isLoading := false |};
         trace := [SetIsLoading true; Query (completed_for userId);
                   ToastError "Failed to load transaction history"; ConsoleError err;
                   SetIsLoading false] |}
  | None =>
      let rows := match Supabase.data (run b (completed_for userId)) with
                  | Some rows => rows
                  | None => []
                  end in
      {| cells := {| user := user s; transactions := rows; isLoading := false |};
         trace := [SetIsLoading true; Query (completed_for userId);
                   SetTransactions rows; SetIsLoading false] |}
  end.
Proof.
  run_handlers. change (Supabase.order _ _ _) with (completed_for userId).
  destruct (Supabase.error (run b (completed_for userId))); reflexivity.
Qed.

Lemma check_run (b : Backend) (s : State) :
  exec (checkUser b) s =
  match session b with
  | None => {| cells := s; trace := [GetSession; Navigate "/auth"] |}
  | Some sess =>
      let w := exec (fetchTransactions b (user_id (session_user sess)))
                    {| user := Some (session_user sess);
                       transactions := transactions s; isLoading := isLoading s |} in
      {| cells := cells w;
         trace := GetSession :: SetUser (session_user sess) :: trace w |}
  end.
Proof.
  destruct (session b) as [sess|] eqn:E.
  - cbv zeta. rewrite fetch_run. run_handlers. rewrite E. cbn.
    change (Supabase.order _ _ _) with (completed_for (user_id (session_user sess))).
    destruct (Supabase.error (run b (completed_for (user_id (session_user sess))))); reflexivity.
  - run_handlers. rewrite E. reflexivity.
Qed.

(** C5. When the request returns an error the loader raises the toast
    "Failed to load transaction history", logs the error and leaves the held
    list as it was, which on mount is the empty list; whatever the request
    returns, the loader ends by clearing the loading flag. *)
Theorem fetch_error_handling (b : Backend) :
  (forall userId s,
     let w := exec (fetchTransactions b userId) s in
     isLoading (cells w) = false
     /\ last (trace w) GetSession = SetIsLoading false
     /\ forall err,
          Supabase.error (run b (completed_for userId)) = Some err ->
          trace w = [SetIsLoading true; Query (completed_for userId);
                     ToastError "Failed to load transaction history";
                     ConsoleError err; SetIsLoading false]
          /\ transactions (cells w) = transactions s)
  /\ (forall sess err,
        session b = Some sess ->
        Supabase.error (run b (completed_for (user_id (session_user sess)))) = Some err ->
        transactions (cells (mount b)) = []
        /\ isLoading (cells (mount b)) = false).
Proof.
  split.
  - intros userId s w. subst w. rewrite fetch_run.
    destruct (Supabase.error (run b (completed_for userId))) as [e|].
    + split; [reflexivity | split; [reflexivity|]].
      intros err H. injection H as <-. split; reflexivity.
    + split; [reflexivity | split; [reflexivity|]].
      intros err H. discriminate H.
  - intros sess err Hs He. unfold mount. rewrite check_run, Hs. cbv zeta.
    rewrite fetch_run, He. split; reflexivity.
Qed.

Lemma fetch_error_handling_witness :
  trace (mount failing_backend) =
    [GetSession; SetUser {| user_id := "u-1" |}; SetIsLoading true;
     Query (completed_for "u-1");
     ToastError "Failed to load transaction history";
     ConsoleError sample_error; SetIsLoading false]
  /\ transactions (cells (mount failing_backend)) = []
  /\ isLoading (cells (mount failing_backend)) = false.
Proof.
  split; [reflexivity|].
  apply (proj2 (fetch_error_handling failing_backend)
               {| session_user := {| user_id := "u-1" |} |} sample_error);
    reflexivity.
Defined.

(** C6. Without a session the mount handler navigates to "/auth" and does
    nothing else: no request is issued and no state cell is written. *)
Theorem no_session_redirects (b : Backend) (s : State) :
  session b = None ->
  exec (checkUser b) s = {| cells := s; trace := [GetSession; Navigate "/auth"] |}
  /\ queries (trace (exec (checkUser b) s)) = []
  /\ user (cells (exec (checkUser b) s)) = user s.
Proof.
  intros H. rewrite check_run, H. repeat split.
Qed.

Lemma no_session_redirects_witness :
  mount signed_out_backend = {| cells := initial; trace := [GetSession; Navigate "/auth"] |}
  /\ queries (trace (mount signed_out_backend)) = []
  /\ user (cells (mount signed_out_backend)) = None.
Proof.
  exact (no_session_redirects signed_out_backend initial eq_refl).
Defined.

(** C8. For every user identity the loader issues exactly one read request:
    on the "transactions" relation, filtered by [recipient_id] equal to the
    identity and by [status] equal to "completed", selecting the joined
    food item's name, sorted by [created_at] descending. *)
Theorem fetch_issues_one_query (b : Backend) (userId : string) (s : State) :
  queries (trace (exec (fetchTransactions b userId) s)) =
    [ {| Supabase.table := "transactions";
         Supabase.columns := "*,food_items:food_item_id(name)";
         Supabase.filters := [Supabase.Eq "recipient_id" userId;
                              Supabase.Eq "status" "completed"];
         Supabase.orderings := [{| Supabase.order_column := "created_at";
                                   Supabase.ascending := false |}] |} ].
Proof.
  rewrite fetch_run.
  destruct (Supabase.error (run b (completed_for userId))); reflexivity.
Qed.

(* ===================================================================== *)
(** * The element tree *)
(* ===================================================================== *)

Section Tree.

Variable format : string -> string -> option string.

Lemma traverse_Forall2 {A B} (f : A -> option B) (l : list A) :
  forall bs, traverse f l = Some bs -> Forall2 (fun a b => f a = Some b) l bs.
Proof.
  induction l as [|a l IH]; intros bs H; simpl in H.
  - injection H as <-. constructor.
  - destruct (f a) as [b|] eqn:Ea; [|discriminate].
    destruct (traverse f l) as [bs'|]; [|discriminate].
    injection H as <-. constructor; auto.
Qed.

Lemma traverse_length {A B} (f : A -> option B) (l : list A) (bs : list B) :
  traverse f l = Some bs -> List.length bs = List.length l.
Proof.
  intros H. apply traverse_Forall2 in H.
  induction H; simpl; congruence.
Qed.

(** The leaves of a card: title, status, price, fee, buyer, date, note. *)
Lemma card_leaves (tx : Transaction) (card : node) :
  transactionCard format tx = Some card ->
  exists date,
    format (created_at tx) "PPP 'at' p" = Some date
    /\ leaves card =
        ([ Expr (JS.Str (JS.or_string (option_map name (food_items tx)) "Gift Item"));
           Expr (JS.Str (status tx));
           Expr (getCurrencySymbol (currency tx));
           Expr (JS.Str (JS.toFixed 2 (item_price tx)));
           Text "+";
           Expr (getCurrencySymbol (currency tx));
           Expr (JS.Str (JS.toFixed 2 (service_fee tx)));
           Text " service fee";
           Text "From:";
           Expr (JS.Str (buyer_email tx));
           Text "Date:";
           Expr (JS.Str date) ] ++ leaves (noteBlock tx))%list.
Proof.
  unfold transactionCard.
  destruct (format (created_at tx) "PPP 'at' p") as [date|]; [|discriminate].
  intros H. injection H as <-. exists date. split; [reflexivity|].
  cbn [leaves flat_map app]. now rewrite !app_nil_r.
Qed.

Lemma note_leaves (tx : Transaction) :
  leaves (noteBlock tx) =
  match buyer_note tx with
  | None => [Expr JS.Null]
  | Some note =>
      if String.eqb note EmptyString then [Expr (JS.Str note)]
      else [Text "Message:"; Text quote; Expr (JS.Str note); Text quote]
  end.
Proof.
  unfold noteBlock, JS.truthy_string.
  destruct (buyer_note tx) as [note|]; [|reflexivity].
  destruct (String.eqb note EmptyString); reflexivity.
Qed.

Lemma card_literals (tx : Transaction) (card : node) :
  transactionCard format tx = Some card ->
  Forall (fun l => forall s, literal l = Some s -> In s card_labels) (leaves card).
Proof.
  intros H. destruct (card_leaves tx card H) as (date & _ & ->).
  rewrite note_leaves.
  destruct (buyer_note tx) as [note|]; [destruct (String.eqb note EmptyString)|];
    repeat (constructor; [intros s E; simpl in E; try discriminate E;
                          injection E as <-; simpl; tauto|]);
    constructor.
Qed.

Lemma cards_literals (txs : list Transaction) (cards : list node) :
  traverse (transactionCard format) txs = Some cards ->
  Forall (fun l => forall s, literal l = Some s -> In s card_labels)
         (flat_map leaves cards).
Proof.
  intros H. apply traverse_Forall2 in H.
  induction H as [|tx card txs cards Hc _ IH]; simpl.
  - constructor.
  - apply Forall_app. split; [now apply (card_literals tx)|exact IH].
Qed.

Lemma no_label (label : string) (l : list node) :
  Forall (fun l => forall s, literal l = Some s -> In s card_labels) l ->
  ~ In label card_labels ->
  existsb (fun l => match literal l with
                    | Some s => String.eqb s label
                    | None => false
                    end) l = false.
Proof.
  intros H N. induction H as [|x l Hx _ IH]; simpl; [reflexivity|].
  rewrite IH, orb_false_r.
  destruct (literal x) as [s|] eqn:E; [|reflexivity].
  apply String.eqb_neq. intros ->. apply N, Hx. reflexivity.
Qed.

(** The leaves of the page: the header's title, the summary card, then the
    section the conditional selects. *)
Lemma page_leaves (s : State) (page : node) :
  TransactionHistory format s = Some page ->
  exists list,
    transactionsList format s = Some list
    /\ leaves page =
        ([ Text "Transaction History";
           Text "Summary";
           Text "Your received gifts overview";
           Text "Total Gifts Received";
           Expr (JS.Num (JS.of_length (List.length (transactions s))));
           Text "Total Value Received";
           Expr (getCurrencySymbol
                   (JS.or_string (option_map currency (nth_error (transactions s) 0)) "USD"));
           Expr (JS.Str (JS.toFixed 2 (getTotalReceived (transactions s)))) ]
         ++ leaves list)%list.
Proof.
  unfold TransactionHistory.
  destruct (transactionsList format s) as [list|]; [|discriminate].
  intros H. injection H as <-. exists list. split; [reflexivity|].
  cbn [leaves flat_map app header summaryCard]. now rewrite !app_nil_r.
Qed.

End Tree.

(* ===================================================================== *)
(** * The page *)
(* ===================================================================== *)

Section Page.

Variable format : string -> string -> option string.

Lemma shows_app (label : string) (tag : string) (attrs : list attr) (cs : list node) :
  shows label (Elem tag attrs cs) =
  existsb (fun l => match literal l with
                    | Some s => String.eqb s label
                    | None => false
                    end) (flat_map leaves cs).
Proof. reflexivity. Qed.

(** The captions of a page whose list section holds cards. *)
Lemma populated_panels (txs : list Transaction) (cards : list node) :
  traverse (transactionCard format) txs = Some cards ->
  panels (Elem "div" [className "min-h-screen bg-background"]
            [header;
             Elem "main" [className "container mx-auto px-4 py-8 max-w-4xl"]
               [summaryCard txs;
                Elem "div" [className "space-y-4"]
                  [Elem "h2" [className "text-xl font-semibold mb-4"] [Text "All Transactions"];
                   Items cards]]])
  = {| summary := true; spinner := false; empty_state := false; transaction_list := true |}.
Proof.
  intros H. apply cards_literals in H.
  assert (K : forall label, ~ In label card_labels ->
            existsb (fun l => match literal l with
                              | Some s => String.eqb s label
                              | None => false
                              end) (flat_map leaves cards) = false)
    by (intros label N; now apply no_label).
  assert (N : forall label,
            label = "Total Gifts Received" \/ label = "Total Value Received"
            \/ label = "Loading transactions..." \/ label = "No transactions yet"
            \/ label = "All Transactions" ->
            ~ In label card_labels).
  { intros label [->|[->|[->|[->| ->]]]] I; simpl in I;
      repeat (destruct I as [I|I]; [discriminate I|]); exact I. }
  unfold panels.
  rewrite !shows_app.
  cbn [flat_map leaves app header summaryCard].
  rewrite !app_nil_r.
  cbn [existsb literal].
  rewrite !K by (apply N; tauto).
  reflexivity.
Qed.

(** C1, as the code has it.  The page is a function of the state.  The
    summary card (count and total) is part of every page, above a section
    chosen by three exclusive tests in priority order: the spinner while
    loading; else the empty state when the list holds no row; else the list
    of cards, which is the one branch whose evaluation can throw. *)
Theorem page_branches (s : State) :
  option_map panels (TransactionHistory format s) =
  if isLoading s then
    Some {| summary := true; spinner := true; empty_state := false; transaction_list := false |}
  else if (List.length (transactions s) =? 0)%nat then
    Some {| summary := true; spinner := false; empty_state := true; transaction_list := false |}
  else
    option_map
      (fun _ => {| summary := true; spinner := false; empty_state := false; transaction_list := true |})
      (traverse (transactionCard format) (transactions s)).
Proof.
  unfold TransactionHistory, transactionsList.
  destruct (isLoading s); [reflexivity|].
  destruct (List.length (transactions s) =? 0)%nat; [reflexivity|].
  destruct (traverse (transactionCard format) (transactions s)) as [cards|] eqn:E;
    [|reflexivity].
  cbn [option_map]. f_equal. now apply populated_panels.
Qed.

End Page.

(** C1, as the claim has it, fails: the page of the initial state, which is
    loading and holds no row, shows the summary card with the spinner. *)
Lemma summary_shown_while_loading :
  exists page,
    TransactionHistory sample_format initial = Some page
    /\ isLoading initial = true
    /\ summary (panels page) = true
    /\ spinner (panels page) = true
    /\ transaction_list (panels page) = false
    /\ leaves page =
         [ Text "Transaction History"; Text "Summary"; Text "Your received gifts overview";
           Text "Total Gifts Received"; Expr (JS.Num 0);
           Text "Total Value Received"; Expr (JS.Str "$"); Expr (JS.Str "0.00");
           Text "Loading transactions..." ].
Proof.
  eexists. split; [reflexivity|]. repeat split.
Qed.

(* ===================================================================== *)
(** * The summary card *)
(* ===================================================================== *)

Section Summary.

Variable format : string -> string -> option string.

Lemma total_is_fold (txs : list Transaction) :
  getTotalReceived txs = fold_left PrimFloat.add (map item_price txs) 0%float.
Proof.
  unfold getTotalReceived. generalize 0%float.
  induction txs as [|tx txs IH]; intros acc; simpl; [reflexivity | apply IH].
Qed.

(** What follows the two captions of the summary card. *)
Lemma summary_leaves (s : State) (page : node) :
  TransactionHistory format s = Some page ->
  nth_error (after "Total Gifts Received" (leaves page)) 0 =
    Some (Expr (JS.Num (JS.of_length (List.length (transactions s)))))
  /\ nth_error (after "Total Value Received" (leaves page)) 0 =
       Some (Expr (getCurrencySymbol
                     (JS.or_string (option_map currency (nth_error (transactions s) 0)) "USD")))
  /\ nth_error (after "Total Value Received" (leaves page)) 1 =
       Some (Expr (JS.Str (JS.toFixed 2 (getTotalReceived (transactions s))))).
Proof.
  intros H. destruct (page_leaves format s page H) as (list & _ & ->).
  repeat split.
Qed.

(** C2, as the code has it.  On every page the amount under "Total Value
    Received" is [toFixed(2)] of the sum of the [item_price] fields, added
    left to right from 0 (no [service_fee] enters it).  That text has exactly
    two decimal places when the sum is a finite number of magnitude below
    10^21, and it is "0.00" for the empty list. *)
Theorem total_value_received (s : State) (page : node) :
  TransactionHistory format s = Some page ->
  nth_error (after "Total Value Received" (leaves page)) 1 =
    Some (Expr (JS.Str (JS.toFixed 2 (getTotalReceived (transactions s)))))
  /\ getTotalReceived (transactions s) =
       fold_left PrimFloat.add (map item_price (transactions s)) 0%float
  /\ (JS.below_1e21 (getTotalReceived (transactions s)) = true ->
      two_decimals (JS.toFixed 2 (getTotalReceived (transactions s))) = true)
  /\ (transactions s = [] ->
      JS.toFixed 2 (getTotalReceived (transactions s)) = "0.00").
Proof.
  intros H. split; [apply (summary_leaves s page H)|].
  split; [apply total_is_fold|].
  split; [apply toFixed_two_decimals|].
  intros ->. reflexivity.
Qed.

(** C7. After a fetch that succeeds with [rows], the held list is [rows] and
    the number under "Total Gifts Received" is its length. *)
Theorem gifts_received_count (b : Backend) (userId : string) (s : State)
    (rows : list Transaction) (page : node) :
  Supabase.error (run b (completed_for userId)) = None ->
  Supabase.data (run b (completed_for userId)) = Some rows ->
  TransactionHistory format (cells (exec (fetchTransactions b userId) s)) = Some page ->
  transactions (cells (exec (fetchTransactions b userId) s)) = rows
  /\ nth_error (after "Total Gifts Received" (leaves page)) 0 =
       Some (Expr (JS.Num (JS.of_length (List.length rows)))).
Proof.
  intros He Hd H.
  destruct (summary_leaves _ page H) as (C & _).
  rewrite C. rewrite fetch_run, He, Hd. split; reflexivity.
Qed.

End Summary.

Lemma total_value_received_witness :
  nth_error (after "Total Value Received"
               (leaves (Elem "div" [className "min-h-screen bg-background"]
                          [header;
                           Elem "main" [className "container mx-auto px-4 py-8 max-w-4xl"]
                             [summaryCard []; emptyView]]))) 1
  = Some (Expr (JS.Str "0.00"))
  /\ two_decimals "0.00" = true.
Proof.
  pose proof (total_value_received sample_format (loaded []) _ eq_refl) as (A & _ & B & C).
  split.
  - rewrite <- (C eq_refl). exact A.
  - rewrite <- (C eq_refl). apply B. reflexivity.
Defined.

(** C2, as the claim has it, fails: a single row priced 10^21 is shown as
    "1e+21", which has no decimal places. *)
Lemma total_without_decimals :
  exists page,
    TransactionHistory sample_format (loaded [sample 1e21 "USD" None None]) = Some page
    /\ nth_error (after "Total Value Received" (leaves page)) 1 = Some (Expr (JS.Str "1e+21"))
    /\ two_decimals "1e+21" = false.
Proof.
  eexists. split; [reflexivity|]. split; [|reflexivity].
  vm_compute. reflexivity.
Qed.

Lemma gifts_received_count_witness :
  exists page,
    TransactionHistory sample_format (cells (mount (sample_backend [jollof; jollof]))) = Some page
    /\ transactions (cells (mount (sample_backend [jollof; jollof]))) = [jollof; jollof]
    /\ nth_error (after "Total Gifts Received" (leaves page)) 0 = Some (Expr (JS.Num 2)).
Proof.
  eexists. split; [reflexivity|].
  change (cells (mount (sample_backend [jollof; jollof])))
    with (cells (exec (fetchTransactions (sample_backend [jollof; jollof]) "u-1")
                      {| user := Some {| user_id := "u-1" |}; transactions := [];
                         isLoading := true |})).
  exact (gifts_received_count sample_format (sample_backend [jollof; jollof]) "u-1" _
           [jollof; jollof] _ eq_refl eq_refl eq_refl).
Defined.

(* ===================================================================== *)
(** * Currency symbols *)
(* ===================================================================== *)

Section Currency.

Variable format : string -> string -> option string.

(** The four codes of the table. *)
Lemma currency_symbol_table :
  getCurrencySymbol "USD" = JS.Str "$"
  /\ getCurrencySymbol "EUR" = JS.Str "€"
  /\ getCurrencySymbol "GBP" = JS.Str "£"
  /\ getCurrencySymbol "NGN" = JS.Str "₦".
Proof. repeat split. Qed.

(** A code that is no key of the table and no property name of
    [Object.prototype] falls back to "$". *)
Lemma currency_symbol_fallback (code : string) :
  JS.own symbols code = None ->
  JS.own JS.Object_prototype code = None ->
  getCurrencySymbol code = JS.Str "$".
Proof.
  intros H1 H2. unfold getCurrencySymbol, JS.get. now rewrite H1, H2.
Qed.

Lemma currency_symbol_unknown :
  getCurrencySymbol "XYZ" = JS.Str "$" /\ getCurrencySymbol EmptyString = JS.Str "$".
Proof. split; reflexivity. Qed.

(** The code the summary looks up, [transactions[0]?.currency || "USD"],
    has the symbol of the first row's code, and "$" when there is no row. *)
Lemma summary_symbol (txs : list Transaction) :
  getCurrencySymbol (JS.or_string (option_map currency (nth_error txs 0)) "USD") =
  match txs with
  | [] => JS.Str "$"
  | tx :: _ => getCurrencySymbol (currency tx)
  end.
Proof.
  destruct txs as [|tx rest]; [reflexivity|].
  cbn [nth_error option_map JS.or_string]. unfold JS.truthy_string.
  destruct (String.eqb_spec (currency tx) EmptyString) as [E|_]; [|reflexivity].
  rewrite E. reflexivity.
Qed.

End Currency.

(** C3 at the code "constructor": the lookup finds the property every object
    literal inherits and returns that function, not "$"; a list whose first
    row carries the code puts it in the summary. *)
Theorem inherited_name_symbol :
  getCurrencySymbol "constructor" = JS.Function "Object"
  /\ getCurrencySymbol "constructor" <> JS.Str "$"
  /\ exists page,
       TransactionHistory sample_format (loaded [sample 12.5 "constructor" None None]) = Some page
       /\ nth_error (after "Total Value Received" (leaves page)) 0 =
            Some (Expr (JS.Function "Object")).
Proof.
  split; [reflexivity|]. split; [discriminate|].
  eexists. split; reflexivity.
Qed.

(* ===================================================================== *)
(** * Transaction cards *)
(* ===================================================================== *)

Section Cards.

Variable format : string -> string -> option string.

Lemma card_fails_on_date_only (tx : Transaction) :
  transactionCard format tx = None <-> format (created_at tx) "PPP 'at' p" = None.
Proof.
  unfold transactionCard.
  destruct (format (created_at tx) "PPP 'at' p"); split; intros H;
    try discriminate H; reflexivity.
Qed.

(** C4, as the code has it.  In a card the note slot follows the date.  It
    holds no block when [buyer_note] is null or the empty string: the slot
    is then the falsy operand itself.  For a non-empty note it holds the
    block: the caption "Message:" and the note between quotation marks. *)
Theorem note_block_rendering (tx : Transaction) (card : node) :
  transactionCard format tx = Some card ->
  tl (after "Date:" (leaves card)) =
    match buyer_note tx with
    | None => [Expr JS.Null]
    | Some note =>
        if String.eqb note EmptyString then [Expr (JS.Str EmptyString)]
        else [Text "Message:"; Text quote; Expr (JS.Str note); Text quote]
    end
  /\ shows "Message:" card =
       match buyer_note tx with
       | None => false
       | Some note => negb (String.eqb note EmptyString)
       end.
Proof.
  intros H. unfold shows.
  destruct (card_leaves format tx card H) as (date & _ & ->).
  rewrite note_leaves.
  destruct (buyer_note tx) as [note|]; [|split; reflexivity].
  destruct (String.eqb_spec note EmptyString) as [->|_]; split; reflexivity.
Qed.

(** C9. Whether a card can be built depends on the date alone, not on the
    food item; and the title of a card whose food item is null is the
    label "Gift Item". *)
Theorem missing_food_item_title (tx : Transaction) :
  (transactionCard format tx = None <-> format (created_at tx) "PPP 'at' p" = None)
  /\ (food_items tx = None ->
      forall card, transactionCard format tx = Some card ->
        option_map children (find "h3" card) = Some [Expr (JS.Str "Gift Item")]).
Proof.
  split; [apply card_fails_on_date_only|].
  intros E card. unfold transactionCard.
  destruct (format (created_at tx) "PPP 'at' p") as [date|]; [|discriminate].
  intros H. injection H as <-. rewrite E. reflexivity.
Qed.

Lemma total_depends_on_prices (txs txs' : list Transaction) :
  map item_price txs = map item_price txs' ->
  getTotalReceived txs = getTotalReceived txs'.
Proof.
  intros H. now rewrite !total_is_fold, H.
Qed.

(** C10. The total adds the [item_price] of every row whatever its currency
    code: two lists with the same prices have the same total.  The symbol
    before the total is that of the first row's code alone.  In a card the
    price and the fee each carry the symbol of the card's own code. *)
Theorem symbols_and_total :
  (forall txs txs',
     map item_price txs = map item_price txs' ->
     getTotalReceived txs = getTotalReceived txs')
  /\ (forall s page tx rest,
        TransactionHistory format s = Some page ->
        transactions s = tx :: rest ->
        nth_error (after "Total Value Received" (leaves page)) 0 =
          Some (Expr (getCurrencySymbol (currency tx)))
        /\ nth_error (after "Total Value Received" (leaves page)) 1 =
             Some (Expr (JS.Str (JS.toFixed 2
                     (fold_left PrimFloat.add (map item_price (tx :: rest)) 0%float)))))
  /\ (forall tx card,
        transactionCard format tx = Some card ->
        firstn 6 (skipn 2 (leaves card)) =
          [ Expr (getCurrencySymbol (currency tx));
            Expr (JS.Str (JS.toFixed 2 (item_price tx)));
            Text "+";
            Expr (getCurrencySymbol (currency tx));
            Expr (JS.Str (JS.toFixed 2 (service_fee tx)));
            Text " service fee" ]).
Proof.
  split; [exact total_depends_on_prices|]. split.
  - intros s page tx rest H E.
    destruct (summary_leaves format s page H) as (_ & A & B).
    rewrite A, B, summary_symbol, total_is_fold, E. split; reflexivity.
  - intros tx card H.
    destruct (card_leaves format tx card H) as (date & _ & ->). reflexivity.
Qed.

End Cards.

(** C4, as the claim has it, fails: a row whose note is the empty string,
    which is not null, gets no message block. *)
Lemma empty_note_has_no_block :
  exists card,
    transactionCard sample_format (sample 12.5 "NGN" (Some EmptyString) None) = Some card
    /\ buyer_note (sample 12.5 "NGN" (Some EmptyString) None) <> None
    /\ shows "Message:" card = false
    /\ shows quote card = false
    /\ tl (after "Date:" (leaves card)) = [Expr (JS.Str EmptyString)].
Proof.
  eexists. split; [reflexivity|]. split; [discriminate|]. repeat split.
Qed.

Lemma note_block_rendering_witness :
  exists card,
    transactionCard sample_format (sample 12.5 "NGN" (Some "Enjoy!") None) = Some card
    /\ tl (after "Date:" (leaves card)) =
         [Text "Message:"; Text quote; Expr (JS.Str "Enjoy!"); Text quote]
    /\ shows "Message:" card = true.
Proof.
  eexists. split; [reflexivity|].
  exact (note_block_rendering sample_format (sample 12.5 "NGN" (Some "Enjoy!") None) _ eq_refl).
Defined.

Lemma missing_food_item_title_witness :
  exists card,
    transactionCard sample_format (sample 12.5 "NGN" None None) = Some card
    /\ option_map children (find "h3" card) = Some [Expr (JS.Str "Gift Item")].
Proof.
  eexists. split; [reflexivity|].
  exact (proj2 (missing_food_item_title sample_format (sample 12.5 "NGN" None None))
               eq_refl _ eq_refl).
Defined.

(** Ten dollars and five naira are shown as fifteen dollars. *)
Lemma symbols_and_total_witness :
  exists page,
    TransactionHistory sample_format
      (loaded [sample 10 "USD" None None; sample 5 "NGN" None None]) = Some page
    /\ nth_error (after "Total Value Received" (leaves page)) 0 = Some (Expr (JS.Str "$"))
    /\ nth_error (after "Total Value Received" (leaves page)) 1 = Some (Expr (JS.Str "15.00")).
Proof.
  eexists. split; [reflexivity|].
  exact (proj1 (proj2 (symbols_and_total sample_format))
               (loaded [sample 10 "USD" None None; sample 5 "NGN" None None]) _
               (sample 10 "USD" None None) [sample 5 "NGN" None None] eq_refl eq_refl).
Defined.

(** The row of the specification's example. *)
Example jollof_card :
  option_map leaves (transactionCard sample_format jollof) =
  Some [ Expr (JS.Str "Jollof Rice"); Expr (JS.Str "completed");
         Expr (JS.Str "₦"); Expr (JS.Str "12.50");
         Text "+"; Expr (JS.Str "₦"); Expr (JS.Str "1.50"); Text " service fee";
         Text "From:"; Expr (JS.Str "ada@example.com");
         Text "Date:"; Expr (JS.Str "January 5th, 2024 at 10:00 AM");
         Expr JS.Null ].
Proof. reflexivity. Qed.

(* ===================================================================== *)
(** * Sample runs *)
(* ===================================================================== *)

Example toFixed_samples :
  JS.toFixed 2 12.5 = "12.50"
  /\ JS.toFixed 2 1.5 = "1.50"
  /\ JS.toFixed 2 0 = "0.00"
  /\ JS.toFixed 2 (-0) = "0.00"
  /\ JS.toFixed 2 0x1.0147ae147ae14p+0 = "1.00"
  /\ JS.toFixed 2 (-0x1.2c28f5c28f5c3p+1) = "-2.35"
  /\ JS.toFixed 2 (10 + 5) = "15.00"
  /\ JS.toFixed 2 0x1.b1ae4d6e2ef5p+69 = "1e+21"
  /\ JS.toFixed 2 0x1p+70 = "1.1805916207174113e+21"
  /\ JS.toFixed 2 (0x1p+1023 + 0x1p+1023) = "Infinity".
Proof. repeat split. Qed.

Example mount_signed_in :
  mount (sample_backend [jollof]) =
  {| cells := loaded [jollof];
     trace := [GetSession; SetUser {| user_id := "u-1" |}; SetIsLoading true;
               Query (completed_for "u-1"); SetTransactions [jollof];
               SetIsLoading false] |}.
Proof. reflexivity. Qed.

Example select_is_cleaned :
  Supabase.clean false select_columns = "*,food_items:food_item_id(name)".
Proof. reflexivity. Qed.

(* ===================================================================== *)
(** * Further properties: the handlers *)
(* ===================================================================== *)

Section Flow.

Variable format : string -> string -> option string.

Lemma page_eq (s : State) :
  TransactionHistory format s =
  option_map (page_around (transactions s)) (transactionsList format s).
Proof.
  unfold TransactionHistory. destruct (transactionsList format s); reflexivity.
Qed.

(** X1. Mounting with a session writes the session's user to the [user]
    cell, issues exactly one request, whose recipient filter is that user's
    id, and ends with the loading flag cleared. *)
Theorem mount_with_session (b : Backend) (sess : Session) :
  session b = Some sess ->
  user (cells (mount b)) = Some (session_user sess)
  /\ queries (trace (mount b)) = [completed_for (user_id (session_user sess))]
  /\ isLoading (cells (mount b)) = false
  /\ firstn 3 (trace (mount b)) =
       [GetSession; SetUser (session_user sess); SetIsLoading true].
Proof.
  intros H. unfold mount. rewrite check_run, H. cbv zeta. rewrite fetch_run.
  destruct (Supabase.error (run b (completed_for (user_id (session_user sess)))));
    repeat split.
Qed.

(** X2. A response without error replaces the held list by the returned
    rows, whatever the list held before, and by the empty list when [data]
    is null; the [user] cell is not touched. *)
Theorem fetch_success_replaces_list (b : Backend) (userId : string) (s : State) :
  Supabase.error (run b (completed_for userId)) = None ->
  let rows := match Supabase.data (run b (completed_for userId)) with
              | Some rows => rows
              | None => []
              end in
  cells (exec (fetchTransactions b userId) s) =
    {| user := user s; transactions := rows; isLoading := false |}
  /\ trace (exec (fetchTransactions b userId) s) =
       [SetIsLoading true; Query (completed_for userId); SetTransactions rows;
        SetIsLoading false].
Proof.
  intros H rows. rewrite fetch_run, H. split; reflexivity.
Qed.

(** A run of the loader from any world: it works on the cells and appends
    its events to the trace. *)
Lemma fetch_world (b : Backend) (userId : string) (w : World) :
  fetchTransactions b userId w =
  (tt, {| cells := cells (exec (fetchTransactions b userId) (cells w));
          trace := (trace w ++ trace (exec (fetchTransactions b userId) (cells w)))%list |}).
Proof.
  destruct w as [s t]. run_handlers.
  match goal with
  | |- context [Supabase.error ?r] => destruct (Supabase.error r)
  end; cbn; rewrite <- !app_assoc; reflexivity.
Qed.

(** X3. Fetching twice in a row leaves the cells as fetching once does, and
    issues the request twice. *)
Theorem refetch_is_idempotent (b : Backend) (userId : string) (s : State) :
  cells (exec (fetchTransactions b userId ;; fetchTransactions b userId) s) =
    cells (exec (fetchTransactions b userId) s)
  /\ queries (trace (exec (fetchTransactions b userId ;; fetchTransactions b userId) s)) =
       [completed_for userId; completed_for userId].
Proof.
  unfold exec at 1 3. unfold bind. rewrite !fetch_world. cbn [snd cells trace app].
  rewrite !fetch_run.
  destruct (Supabase.error (run b (completed_for userId))); split; reflexivity.
Qed.

(** X4. After a mount whose request fails, the page is the empty-state page
    with a summary over no rows: a failure looks like an empty history. *)
Theorem failed_fetch_shows_empty_state (b : Backend) (sess : Session)
    (err : Supabase.PostgrestError) :
  session b = Some sess ->
  Supabase.error (run b (completed_for (user_id (session_user sess)))) = Some err ->
  TransactionHistory format (cells (mount b)) = Some (page_around [] emptyView).
Proof.
  intros Hs He. unfold mount. rewrite check_run, Hs. cbv zeta.
  rewrite fetch_run, He. reflexivity.
Qed.

(** X5. After a mount without a session the loading flag is still set, so
    the page keeps showing the spinner under a summary over no rows. *)
Theorem signed_out_page_keeps_loading (b : Backend) :
  session b = None ->
  isLoading (cells (mount b)) = true
  /\ TransactionHistory format (cells (mount b)) = Some (page_around [] loadingView).
Proof.
  intros H. unfold mount. rewrite check_run, H. split; reflexivity.
Qed.

End Flow.

Lemma mount_with_session_witness :
  user (cells (mount (sample_backend [jollof]))) = Some {| user_id := "u-1" |}
  /\ queries (trace (mount (sample_backend [jollof]))) = [completed_for "u-1"]
  /\ isLoading (cells (mount (sample_backend [jollof]))) = false
  /\ firstn 3 (trace (mount (sample_backend [jollof]))) =
       [GetSession; SetUser {| user_id := "u-1" |}; SetIsLoading true].
Proof.
  exact (mount_with_session (sample_backend [jollof])
           {| session_user := {| user_id := "u-1" |} |} eq_refl).
Defined.

Lemma fetch_success_replaces_list_witness :
  cells (exec (fetchTransactions null_data_backend "u-1") (loaded [jollof])) =
    {| user := Some {| user_id := "u-1" |}; transactions := []; isLoading := false |}
  /\ trace (exec (fetchTransactions null_data_backend "u-1") (loaded [jollof])) =
       [SetIsLoading true; Query (completed_for "u-1"); SetTransactions [];
        SetIsLoading false].
Proof.
  exact (fetch_success_replaces_list null_data_backend "u-1" (loaded [jollof]) eq_refl).
Defined.

Lemma failed_fetch_shows_empty_state_witness :
  TransactionHistory sample_format (cells (mount failing_backend)) =
    Some (page_around [] emptyView).
Proof.
  exact (failed_fetch_shows_empty_state sample_format failing_backend
           {| session_user := {| user_id := "u-1" |} |} sample_error eq_refl eq_refl).
Defined.

Lemma signed_out_page_keeps_loading_witness :
  isLoading (cells (mount signed_out_backend)) = true
  /\ TransactionHistory sample_format (cells (mount signed_out_backend)) =
       Some (page_around [] loadingView).
Proof.
  exact (signed_out_page_keeps_loading sample_format signed_out_backend eq_refl).
Defined.

(* ===================================================================== *)
(** * Further properties: the page *)
(* ===================================================================== *)

Section PageMore.

Variable format : string -> string -> option string.

Lemma traverse_None {A B} (f : A -> option B) (l : list A) :
  traverse f l = None <-> exists a, In a l /\ f a = None.
Proof.
  induction l as [|a l IH]; simpl.
  - split; [discriminate | intros (a & [] & _)].
  - destruct (f a) as [b|] eqn:Ea.
    + destruct (traverse f l) as [bs|].
      * split; [discriminate|].
        intros (x & [<-|Hx] & Hf); [congruence|].
        destruct IH as [_ IH]. discriminate IH. now exists x.
      * split; [|reflexivity]. intros _.
        destruct IH as [IH _]. destruct (IH eq_refl) as (x & Hx & Hf).
        exists x. auto.
    + split; [|reflexivity]. intros _. exists a. auto.
Qed.

(** X6. Evaluating the page throws exactly when loading has ended and some
    held row has a timestamp [format] rejects: one such row takes the whole
    page down, while the spinner and the empty state never throw. *)
Theorem page_throws_on_bad_date (s : State) :
  TransactionHistory format s = None <->
  isLoading s = false
  /\ exists tx, In tx (transactions s) /\ format (created_at tx) "PPP 'at' p" = None.
Proof.
  rewrite page_eq. unfold transactionsList.
  destruct (isLoading s).
  - split; [discriminate | intros [H _]; discriminate H].
  - destruct (transactions s) as [|tx0 rest] eqn:E.
    + split; [discriminate | intros (_ & tx & [] & _)].
    + cbn [List.length Nat.eqb].
      destruct (traverse (transactionCard format) (tx0 :: rest)) as [cards|] eqn:T.
      * split; [discriminate|]. intros (_ & tx & Hin & Hf).
        assert (N : traverse (transactionCard format) (tx0 :: rest) = None).
        { apply traverse_None. exists tx. split; [exact Hin|].
          now apply card_fails_on_date_only. }
        congruence.
      * split; [|reflexivity]. intros _. split; [reflexivity|].
        apply traverse_None in T as (tx & Hin & Hf).
        exists tx. split; [exact Hin|]. now apply card_fails_on_date_only.
Qed.

Lemma card_key (tx : Transaction) (card : node) :
  transactionCard format tx = Some card -> key_of card = Some (id tx).
Proof.
  unfold transactionCard.
  destruct (format (created_at tx) "PPP 'at' p"); [|discriminate].
  intros H. injection H as <-. reflexivity.
Qed.

(** X7. While loading, the page holds no card.  Once loading has ended it
    holds one card per held row, in the order of the list, each keyed by
    its row's id. *)
Theorem one_card_per_transaction (s : State) (page : node) :
  TransactionHistory format s = Some page ->
  if isLoading s then mapped page = []
  else
    Forall2 (fun tx card => transactionCard format tx = Some card)
            (transactions s) (mapped page)
    /\ map key_of (mapped page) = map (fun tx => Some (id tx)) (transactions s)
    /\ List.length (mapped page) = List.length (transactions s).
Proof.
  rewrite page_eq. unfold transactionsList.
  destruct (isLoading s).
  - intros H. injection H as <-. reflexivity.
  - destruct (transactions s) as [|tx0 rest] eqn:E.
    + intros H. injection H as <-. repeat split. constructor.
    + cbn [List.length Nat.eqb].
      destruct (traverse (transactionCard format) (tx0 :: rest)) as [cards|] eqn:T;
        [|discriminate].
      intros H. injection H as <-.
      cbn [mapped flat_map page_around header summaryCard app]. rewrite !app_nil_r.
      pose proof (traverse_Forall2 _ _ _ T) as F.
      split; [exact F|]. split.
      * clear T E. induction F as [|tx card txs cards' Hc _ IH]; [reflexivity|].
        cbn [map]. now rewrite IH, (card_key tx card Hc).
      * now apply traverse_length in T.
Qed.

Lemma card_handlers (tx : Transaction) (card : node) :
  transactionCard format tx = Some card -> handlers card = [].
Proof.
  unfold transactionCard.
  destruct (format (created_at tx) "PPP 'at' p"); [|discriminate].
  intros H. injection H as <-. unfold noteBlock.
  destruct (buyer_note tx) as [note|]; [destruct (JS.truthy_string note)|];
    reflexivity.
Qed.

Lemma cards_handlers (txs : list Transaction) (cards : list node) :
  traverse (transactionCard format) txs = Some cards ->
  flat_map handlers cards = [].
Proof.
  intros H. apply traverse_Forall2 in H.
  induction H as [|tx card txs cards Hc _ IH]; [reflexivity|].
  cbn [flat_map]. now rewrite IH, (card_handlers tx card Hc).
Qed.

(** X8. Every click handler on a page does one thing: it navigates to
    "/dashboard", writing no state cell and issuing no request.  There is
    one such handler, the header's back button, and a second one, the
    empty state's button, exactly when the empty state shows. *)
Theorem clicks_only_navigate (s : State) (page : node) :
  TransactionHistory format s = Some page ->
  Forall (fun handler =>
            forall st, exec handler st = {| cells := st; trace := [Navigate "/dashboard"] |})
         (handlers page)
  /\ List.length (handlers page) =
       if negb (isLoading s) && (List.length (transactions s) =? 0)%nat then 2 else 1.
Proof.
  rewrite page_eq. unfold transactionsList.
  destruct (isLoading s).
  - intros H. injection H as <-. split; [|reflexivity].
    repeat constructor.
  - destruct (List.length (transactions s) =? 0)%nat.
    + intros H. injection H as <-. split; [|reflexivity].
      repeat constructor.
    + destruct (traverse (transactionCard format) (transactions s)) as [cards|] eqn:T;
        [|discriminate].
      intros H. injection H as <-.
      cbn [handlers flat_map click page_around header summaryCard app].
      rewrite (cards_handlers _ _ T). split; [|reflexivity].
      repeat constructor.
Qed.

Lemma shown_card (tx tx' : Transaction) :
  shown tx = shown tx' -> transactionCard format tx = transactionCard format tx'.
Proof.
  destruct tx, tx'. unfold shown. cbn. intros H. injection H as -> -> -> -> -> -> -> -> ->.
  reflexivity.
Qed.

Lemma shown_lists (txs : list Transaction) :
  forall txs',
    map shown txs = map shown txs' ->
    traverse (transactionCard format) txs = traverse (transactionCard format) txs'
    /\ List.length txs = List.length txs'
    /\ map item_price txs = map item_price txs'
    /\ option_map currency (nth_error txs 0) = option_map currency (nth_error txs' 0).
Proof.
  induction txs as [|tx txs IH]; intros [|tx' txs'] H; try discriminate H.
  - repeat split.
  - cbn [map] in H.
    assert (Hh : shown tx = shown tx') by congruence.
    assert (Ht : map shown txs = map shown txs') by congruence.
    destruct (IH txs' Ht) as (A & B & C & _).
    cbn [traverse List.length map nth_error option_map].
    rewrite (shown_card tx tx' Hh), A, B, C.
    assert (P : item_price tx = item_price tx') by (unfold shown in Hh; congruence).
    assert (Q : currency tx = currency tx') by (unfold shown in Hh; congruence).
    rewrite P, Q. repeat split.
Qed.

(** X9. The page depends on the loading flag and on the nine fields of each
    row that the component reads: two states that agree on those have the
    same page, whatever their [user] cell and the rows' [total_amount]. *)
Theorem page_reads_shown_fields (s s' : State) :
  isLoading s = isLoading s' ->
  map shown (transactions s) = map shown (transactions s') ->
  TransactionHistory format s = TransactionHistory format s'.
Proof.
  intros L H. destruct (shown_lists _ _ H) as (A & B & C & D).
  rewrite !page_eq. unfold transactionsList, page_around, summaryCard.
  rewrite (total_depends_on_prices _ _ C).
  rewrite L, A, B, D. reflexivity.
Qed.

(** X10. In a card, the price and the fee are written with exactly two
    decimal places whenever the two numbers are finite and of magnitude
    below 10^21. *)
Theorem card_amounts_two_decimals (tx : Transaction) (card : node) :
  transactionCard format tx = Some card ->
  JS.below_1e21 (item_price tx) = true ->
  JS.below_1e21 (service_fee tx) = true ->
  exists price fee,
    nth_error (leaves card) 3 = Some (Expr (JS.Str price))
    /\ nth_error (after "+" (leaves card)) 1 = Some (Expr (JS.Str fee))
    /\ two_decimals price = true /\ two_decimals fee = true.
Proof.
  intros H P F. destruct (card_leaves format tx card H) as (date & _ & ->).
  exists (JS.toFixed 2 (item_price tx)), (JS.toFixed 2 (service_fee tx)).
  split; [reflexivity|]. split; [reflexivity|].
  split; now apply toFixed_two_decimals.
Qed.

End PageMore.

Lemma page_throws_on_bad_date_witness :
  TransactionHistory sample_format (loaded [jollof; undated]) = None
  /\ TransactionHistory sample_format
       {| user := None; transactions := [jollof; undated]; isLoading := true |} <> None.
Proof.
  split.
  - apply (proj2 (page_throws_on_bad_date sample_format (loaded [jollof; undated]))).
    split; [reflexivity|]. exists undated. split; [simpl; tauto | reflexivity].
  - intros H.
    apply (proj1 (page_throws_on_bad_date sample_format _)) in H.
    destruct H as [H _]. discriminate H.
Defined.

Lemma one_card_per_transaction_witness :
  map key_of (mapped (page_around [jollof; suya]
       (Elem "div" [className "space-y-4"]
          [Elem "h2" [className "text-xl font-semibold mb-4"] [Text "All Transactions"];
           Items (match traverse (transactionCard sample_format) [jollof; suya] with
                  | Some cards => cards
                  | None => []
                  end)])))
  = [Some "tx-1"; Some "tx-3"].
Proof.
  exact (proj1 (proj2 (one_card_per_transaction sample_format (loaded [jollof; suya]) _ eq_refl))).
Defined.

Lemma clicks_only_navigate_witness :
  List.length (handlers (page_around [] emptyView)) = 2
  /\ Forall (fun handler =>
               forall st, exec handler st = {| cells := st; trace := [Navigate "/dashboard"] |})
            (handlers (page_around [] emptyView)).
Proof.
  pose proof (clicks_only_navigate sample_format (loaded []) _ eq_refl) as [A B].
  split; [exact B | exact A].
Defined.

Lemma page_reads_shown_fields_witness :
  TransactionHistory sample_format (loaded [jollof]) =
  TransactionHistory sample_format
    {| user := None;
       transactions :=
         [ {| id := "tx-1"; buyer_email := "ada@example.com"; buyer_note := None;
              item_price := 12.5; service_fee := 1.5; total_amount := 99;
              currency := "NGN"; status := "completed";
              created_at := "2024-01-05T10:00:00Z";
              food_items := Some {| name := "Jollof Rice" |} |} ];
       isLoading := false |}.
Proof.
  apply page_reads_shown_fields; reflexivity.
Defined.

Lemma card_amounts_two_decimals_witness :
  exists card price fee,
    transactionCard sample_format suya = Some card
    /\ nth_error (leaves card) 3 = Some (Expr (JS.Str price))
    /\ nth_error (after "+" (leaves card)) 1 = Some (Expr (JS.Str fee))
    /\ two_decimals price = true /\ two_decimals fee = true.
Proof.
  eexists.
  destruct (card_amounts_two_decimals sample_format suya _ eq_refl eq_refl eq_refl)
    as (price & fee & H).
  exists price, fee. split; [reflexivity | exact H].
Defined.

(* ===================================================================== *)
(** * Further properties: symbols and amounts *)
(* ===================================================================== *)

Section Amounts.

Lemma own_symbols (code : string) :
  JS.own symbols code = None
  \/ exists s, JS.own symbols code = Some (JS.Str s)
               /\ In s ["$"; "€"; "£"; "₦"].
Proof.
  unfold symbols. cbn [JS.own].
  repeat match goal with
         | |- context [String.eqb ?k code] => destruct (String.eqb k code)
         end;
    try (left; reflexivity);
    right; eexists; (split; [reflexivity | simpl; tauto]).
Qed.

(** X11. [getCurrencySymbol] never returns a falsy value (in particular not
    [undefined]); and for every code that is no property name of
    [Object.prototype] it returns one of the four symbols of the table. *)
Theorem currency_symbol_range (code : string) :
  JS.truthy (getCurrencySymbol code) = true
  /\ (JS.own JS.Object_prototype code = None ->
      exists s, getCurrencySymbol code = JS.Str s /\ In s ["$"; "€"; "£"; "₦"]).
Proof.
  unfold getCurrencySymbol, JS.or. split.
  - destruct (JS.truthy (JS.get symbols code)) eqn:T; [exact T | reflexivity].
  - intros P. unfold JS.get. rewrite P.
    destruct (own_symbols code) as [-> | (s & -> & I)].
    + exists "$". split; [reflexivity | simpl; tauto].
    + exists s. split; [|exact I].
      simpl in I. destruct I as [<-|[<-|[<-|[<-|[]]]]]; reflexivity.
Qed.

(** X12. Below 10^21, [toFixed(2)] writes the integer number of hundredths
    nearest to the exact value [m * 2^e] of the number, the larger one when
    two are as near: the text is off by at most half a hundredth. *)
Theorem toFixed_rounds_to_nearest (x : float) (s : bool) (m : positive) (e : Z) :
  Prim2SF x = S754_finite s m e ->
  JS.at_least_1e21 m e = false ->
  exists n : Z,
    JS.toFixed 2 x = (if s then "-" else EmptyString) ++ JS.fixed_point 2 n
    /\ (let d := 2 ^ Z.max 0 (- e) in
        let hundredths := Z.pos m * 2 ^ Z.max 0 e * 100 in
        2 * d * n - d <= 2 * hundredths < 2 * d * n + d)%Z.
Proof.
  intros Hx Hb. exists (JS.nearest_scaled 2 m e). split.
  - unfold JS.toFixed. now rewrite Hx, Hb.
  - unfold JS.nearest_scaled, JS.pow10. cbv zeta.
    change (10 ^ Z.of_nat 2)%Z with 100%Z.
    destruct (Z.leb_spec 0 e) as [He|He].
    + rewrite (Z.max_l 0 (- e)), (Z.max_r 0 e) by lia.
      change (2 ^ 0)%Z with 1%Z. lia.
    + rewrite (Z.max_r 0 (- e)), (Z.max_l 0 e) by lia.
      change (2 ^ 0)%Z with 1%Z.
      assert (D : (0 < 2 ^ (- e))%Z) by (apply Z.pow_pos_nonneg; lia).
      set (d := (2 ^ (- e))%Z) in *.
      set (num := (Z.pos m * 100)%Z).
      pose proof (Z.div_mod (2 * num + d) (2 * d) ltac:(lia)) as E.
      pose proof (Z.mod_pos_bound (2 * num + d) (2 * d) ltac:(lia)) as B.
      replace (Z.pos m * 1 * 100)%Z with num by (unfold num; lia).
      lia.
Qed.

End Amounts.

Lemma currency_symbol_range_witness :
  exists s, getCurrencySymbol "JPY" = JS.Str s /\ In s ["$"; "€"; "£"; "₦"].
Proof.
  exact (proj2 (currency_symbol_range "JPY") eq_refl).
Defined.

(** 1.005 is stored as a number just below it, so it is written "1.00". *)
Lemma toFixed_rounds_to_nearest_witness :
  exists n : Z,
    JS.toFixed 2 0x1.0147ae147ae14p+0 = JS.fixed_point 2 n
    /\ (2 * 2 ^ 52 * n - 2 ^ 52 <= 2 * (4526117625507348 * 100) < 2 * 2 ^ 52 * n + 2 ^ 52)%Z.
Proof.
  exact (toFixed_rounds_to_nearest 0x1.0147ae147ae14p+0 false 4526117625507348 (-52)
           eq_refl eq_refl).
Defined.

(* ===================================================================== *)
(** * Further properties: exponent notation *)
(* ===================================================================== *)

Section Exponent.

Variable format : string -> string -> option string.

Lemma digit_is_no_point (t : string) :
  all_digits t = true -> String.length t = 1 -> String.eqb t "." = false.
Proof.
  destruct t as [|c [|c' t]]; try discriminate.
  intros H _. simpl in H. rewrite andb_true_r in H.
  destruct c as [[] [] [] [] [] [] [] []]; try discriminate H; reflexivity.
Qed.

(** A text that ends in "e+" and digits is no two-decimal fraction. *)
Lemma unsigned_exponent (pre dg : string) :
  all_digits dg = true -> unsigned_two_decimals (pre ++ "e+" ++ dg) = false.
Proof.
  intros H. unfold unsigned_two_decimals.
  change (pre ++ "e+" ++ dg) with (pre ++ String "e" (String "+" dg)).
  rewrite length_app.
  destruct dg as [|x [|y [|z dg]]]; cbn [String.length].
  - (* no digit: the last two characters are "e+" *)
    replace (String.length pre + 2 - 2) with (String.length pre + 0) by lia.
    rewrite substring_skip. cbn. now rewrite andb_false_r.
  - (* one digit: the third character from the end is "e" *)
    replace (String.length pre + 3 - 3) with (String.length pre + 0) by lia.
    rewrite substring_skip. cbn. now rewrite andb_false_r.
  - (* two digits: it is "+" *)
    replace (String.length pre + 4 - 3) with (String.length pre + 1) by lia.
    rewrite substring_skip. cbn. now rewrite andb_false_r.
  - (* three digits or more: it is a digit *)
    set (dg' := String x (String y (String z dg))) in *.
    assert (L : String.length dg' = 3 + String.length dg) by reflexivity.
    replace (String.length pre + S (S (S (S (S (String.length dg))))) - 3)
      with (String.length pre + (2 + (String.length dg' - 3))) by lia.
    rewrite substring_skip.
    change (substring (2 + (String.length dg' - 3)) 1 (String "e" (String "+" dg')))
      with (substring (String.length dg' - 3) 1 dg').
    rewrite (digit_is_no_point (substring (String.length dg' - 3) 1 dg')).
    + now rewrite andb_false_r.
    + now apply all_digits_substring.
    + apply length_substring. lia.
Qed.

Lemma exponent_not_two_decimals (pre dg : string) :
  all_digits dg = true -> two_decimals (pre ++ "e+" ++ dg) = false.
Proof.
  intros H. destruct pre as [|c pre].
  - apply (unsigned_exponent EmptyString dg H).
  - destruct c as [[] [] [] [] [] [] [] []];
      first [ exact (unsigned_exponent pre dg H)
            | exact (unsigned_exponent (String _ pre) dg H) ].
Qed.

Lemma toString_exponent_shape (m : positive) (e : Z) :
  exists pre dg, JS.toString_exponent m e = pre ++ "e+" ++ dg /\ all_digits dg = true.
Proof.
  unfold JS.toString_exponent.
  destruct (JS.shortest m e) as [[s k] n].
  eexists _, (JS.digits (n - 1)). split; [reflexivity | apply all_digits_digits].
Qed.

Lemma toFixed_two_decimals_iff (x : float) :
  two_decimals (JS.toFixed 2 x) = JS.below_1e21 x.
Proof.
  destruct (JS.below_1e21 x) eqn:B; [now apply toFixed_two_decimals|].
  revert B. unfold JS.below_1e21, JS.toFixed.
  destruct (Prim2SF x) as [z|[]| |s m e]; try reflexivity; try discriminate.
  destruct (JS.at_least_1e21 m e); [|discriminate]. intros _.
  destruct (toString_exponent_shape m e) as (pre & dg & -> & D).
  destruct s; cbn [append].
  - exact (unsigned_exponent pre dg D).
  - exact (exponent_not_two_decimals pre dg D).
Qed.

(** X13. The amount under "Total Value Received" is a text with exactly two
    decimal places if and only if the sum of the prices is a finite number
    of magnitude below 10^21. *)
Theorem total_two_decimals_iff (s : State) (page : node) :
  TransactionHistory format s = Some page ->
  exists amount,
    nth_error (after "Total Value Received" (leaves page)) 1 = Some (Expr (JS.Str amount))
    /\ two_decimals amount = JS.below_1e21 (getTotalReceived (transactions s)).
Proof.
  intros H. destruct (summary_leaves format s page H) as (_ & _ & A).
  eexists. split; [exact A | apply toFixed_two_decimals_iff].
Qed.

(** X14. A mount raises the error toast only when there is a session and
    the request returns an error; then the toast is "Failed to load
    transaction history". *)
Theorem toast_only_on_error (b : Backend) (msg : string) :
  In (ToastError msg) (trace (mount b)) <->
  msg = "Failed to load transaction history"
  /\ exists sess err,
       session b = Some sess
       /\ Supabase.error (run b (completed_for (user_id (session_user sess)))) = Some err.
Proof.
  unfold mount. rewrite check_run.
  destruct (session b) as [sess|] eqn:Hs.
  - cbv zeta. rewrite fetch_run.
    destruct (Supabase.error (run b (completed_for (user_id (session_user sess)))))
      as [err|] eqn:He; cbn [trace In].
    + split.
      * intros [H|[H|[H|[H|[H|[H|[H|[]]]]]]]]; try discriminate H.
        injection H as <-. split; [reflexivity|]. exists sess, err. auto.
      * intros [-> _]. tauto.
    + split.
      * intros [H|[H|[H|[H|[H|[H|[]]]]]]]; discriminate H.
      * intros (_ & sess' & err' & E1 & E2).
        injection E1 as <-. rewrite He in E2. discriminate E2.
  - cbn [trace In]. split.
    + intros [H|[H|[]]]; discriminate H.
    + intros (_ & sess' & err' & E1 & _). discriminate E1.
Qed.

End Exponent.

Lemma total_two_decimals_iff_witness :
  exists page amount,
    TransactionHistory sample_format (loaded [sample 1e21 "USD" None None; jollof]) = Some page
    /\ nth_error (after "Total Value Received" (leaves page)) 1 = Some (Expr (JS.Str amount))
    /\ two_decimals amount = false.
Proof.
  eexists.
  destruct (total_two_decimals_iff sample_format
              (loaded [sample 1e21 "USD" None None; jollof]) _ eq_refl)
    as (amount & A & B).
  exists amount. split; [reflexivity|]. split; [exact A | exact B].
Defined.

Lemma toast_only_on_error_witness :
  In (ToastError "Failed to load transaction history") (trace (mount failing_backend))
  /\ ~ In (ToastError "Failed to load transaction history")
          (trace (mount (sample_backend [jollof]))).
Proof.
  split.
  - apply (proj2 (toast_only_on_error failing_backend _)).
    split; [reflexivity|].
    exists {| session_user := {| user_id := "u-1" |} |}, sample_error.
    split; reflexivity.
  - intros H.
    apply (proj1 (toast_only_on_error (sample_backend [jollof]) _)) in H.
    destruct H as (_ & sess & err & _ & E). discriminate E.
Defined.
